(** * tflite-model-shape-checker.py

    A shallow embedding of the diagnostic script
    [app/src/main/assets/tflite-model-shape-checker.py] and the properties
    of its runs.

    The script is a straight line of calls into an external runtime
    (TensorFlow Lite, reached through [tf.compat.v1.lite]) and into Python's
    built-in [print].  Neither is part of the repository, so the runtime is
    a parameter of the development: every call is a transformer of the
    process's world that either returns a value or raises.  The script is
    written in a state-and-exception monad that threads the world, the text
    on standard output and a log of the calls made. *)

From Stdlib Require Import String Ascii List Bool Arith Lia.
Import ListNotations.
Open Scope string_scope.

(** Characters that a string literal of the script spells with an escape
    or that delimit it. *)
Definition nl : string := String (ascii_of_nat 10) EmptyString.
Definition dq : string := String (ascii_of_nat 34) EmptyString.

(** ** Python values, exceptions and the world of a run *)

Section Script.

(** Exceptions, interpreter objects, the value returned by
    [get_input_details] / [get_output_details] (a list of dictionaries)
    and the runtime's private memory are the runtime's own. *)
Variables Exn Handle Details Heap : Type.

(** The Python values the script handles. *)
Inductive value : Type :=
| VNone
| VStr (s : string)
| VInterpreter (h : Handle)
| VDetails (d : Details).

(** What a call may read or change: the command line, the environment
    variables, the file system (path to contents) and the runtime's
    objects. *)
Record World : Type := mkWorld {
  argv : list string;
  environ : list (string * string);
  files : string -> option string;
  heap : Heap
}.

Inductive result (A : Type) : Type :=
| Return (a : A)
| Raise (e : Exn).
Arguments Return {A} a.
Arguments Raise {A} e.

(** The calls the script makes, with their arguments. *)
Inductive call : Type :=
| call_Interpreter (model_path : string)
| call_allocate_tensors (self : Handle)
| call_get_input_details (self : Handle)
| call_get_output_details (self : Handle)
| call_print (args : list value).

Inductive outcome : Type :=
| Returned (v : value)
| Raised (e : Exn).

Definition event : Type := call * outcome.

(** The state threaded through the script. *)
Record State : Type := mkState {
  world : World;
  stdout : string;
  trace : list event
}.

(** ** The monad *)

Definition M (A : Type) : Type := State -> result A * State.

Definition ret {A : Type} (a : A) : M A := fun st => (Return a, st).

(** Sequencing: an exception raised by the first action skips the
    rest, as an exception does in a block without [try]. *)
Definition bind {A B : Type} (m : M A) (k : A -> M B) : M B :=
  fun st =>
    match m st with
    | (Return a, st') => k a st'
    | (Raise e, st') => (Raise e, st')
    end.

Definition log (c : call) (o : outcome) (w : World) (st : State) : State :=
  {| world := w; stdout := stdout st; trace := trace st ++ [(c, o)] |}.

(** A call into the runtime: it acts on the world, and is logged with
    its outcome. *)
Definition invoke {A : Type} (c : call) (inj : A -> value)
    (op : World -> result A * World) : M A :=
  fun st =>
    match op (world st) with
    | (Return a, w) => (Return a, log c (Returned (inj a)) w st)
    | (Raise e, w) => (Raise e, log c (Raised e) w st)
    end.

(** ** The runtime: [tf.compat.v1.lite] and the built-ins *)

Record Runtime : Type := mkRuntime {
  Interpreter : string -> World -> result Handle * World;
  allocate_tensors : Handle -> World -> result unit * World;
  get_input_details : Handle -> World -> result Details * World;
  get_output_details : Handle -> World -> result Details * World
}.

(** [import tensorflow as tf] binds [tf]: the runs described here are
    those of a process in which the module has been loaded. *)
Variable tf : Runtime.

(** [str] of the objects the runtime hands out. *)
Variable str_details : Details -> string.
Variable str_interpreter : Handle -> string.

(** Whether writing a text after what standard output already holds
    raises (a closed pipe, a character the stream cannot encode). *)
Variable stdout_fault : string -> string -> option Exn.

(** The runtime's memory when the process starts. *)
Variable fresh_heap : Heap.

Definition str (v : value) : string :=
  match v with
  | VNone => "None"
  | VStr s => s
  | VInterpreter h => str_interpreter h
  | VDetails d => str_details d
  end.

Fixpoint join (sep : string) (l : list string) : string :=
  match l with
  | [] => ""
  | x :: rest =>
      match rest with
      | [] => x
      | _ :: _ => x ++ sep ++ join sep rest
      end
  end.

(** What [print] writes for its arguments: the [str] of each one,
    separated by a space ([sep]), ended by a newline ([end]).  A call of
    [print] is one event: it either writes its whole text and returns, or
    raises and is taken to have written nothing. *)
Definition print_text (args : list value) : string :=
  join " " (map str args) ++ nl.

Definition print (args : list value) : M unit :=
  fun st =>
    let text := print_text args in
    match stdout_fault (stdout st) text with
    | Some e => (Raise e, log (call_print args) (Raised e) (world st) st)
    | None =>
        (Return tt,
         {| world := world st;
            stdout := stdout st ++ text;
            trace := trace st ++ [(call_print args, Returned VNone)] |})
    end.

Definition new_Interpreter (model_path : string) : M Handle :=
  invoke (call_Interpreter model_path) VInterpreter
         (Interpreter tf model_path).

Definition do_allocate_tensors (self : Handle) : M unit :=
  invoke (call_allocate_tensors self) (fun _ => VNone)
         (allocate_tensors tf self).

Definition do_get_input_details (self : Handle) : M Details :=
  invoke (call_get_input_details self) VDetails
         (get_input_details tf self).

Definition do_get_output_details (self : Handle) : M Details :=
  invoke (call_get_output_details self) VDetails
         (get_output_details tf self).

Notation "x <- m ;; k" := (bind m (fun x => k))
  (at level 100, m at next level, right associativity).

(** ** The script *)

Definition TFLITE_PATH : string :=
  "/home/michael/git/litert-samples/examples/audio_classification/android/app/src/main/assets/okay_nabu.tflite".

Definition script : M unit :=
  interpreter <- new_Interpreter TFLITE_PATH ;;
  _ <- do_allocate_tensors interpreter ;;
  input_details <- do_get_input_details interpreter ;;
  _ <- print [VStr ("Input shape :" ++ nl); VDetails input_details] ;;
  output_details <- do_get_output_details interpreter ;;
  print [VStr ("Output shape: " ++ nl); VDetails output_details].

(** A run: a fresh process with empty standard output, started with a
    command line, an environment and a file system. *)
Definition boot (a : list string) (e : list (string * string))
    (f : string -> option string) : State :=
  {| world := {| argv := a; environ := e; files := f; heap := fresh_heap |};
     stdout := "";
     trace := [] |}.

Definition run (a : list string) (e : list (string * string))
    (f : string -> option string) : result unit * State :=
  script (boot a e f).

(** ** Reading a log *)

Definition succeeded (ev : event) : bool :=
  match snd ev with
  | Returned _ => true
  | Raised _ => false
  end.

(** No call of the log raised. *)
Definition all_succeed (tr : list event) : bool := forallb succeeded tr.

Definition is_print (c : call) : bool :=
  match c with
  | call_print _ => true
  | _ => false
  end.

(** The calls into the runtime, in order: every logged call but the
    built-in [print]. *)
Definition runtime_calls (tr : list event) : list call :=
  filter (fun c => negb (is_print c)) (map fst tr).

(** The texts of the [print] calls that returned, in order. *)
Fixpoint reports (tr : list event) : list string :=
  match tr with
  | [] => []
  | (call_print args, Returned _) :: rest => print_text args :: reports rest
  | _ :: rest => reports rest
  end.

(** How many times the constructor was called. *)
Fixpoint constructions (tr : list event) : nat :=
  match tr with
  | [] => 0
  | (call_Interpreter _, _) :: rest => S (constructions rest)
  | _ :: rest => constructions rest
  end.

(** The four calls into the runtime that the script's text contains, for
    the interpreter object [h] that the first of them returns. *)
Definition runtime_sequence (h : Handle) : list call :=
  [ call_Interpreter TFLITE_PATH;
    call_allocate_tensors h;
    call_get_input_details h;
    call_get_output_details h ].

(** The two reports, for the details [d] that the runtime returned. *)
Definition input_report (d : Details) : string :=
  "Input shape :" ++ nl ++ " " ++ str_details d ++ nl.

Definition output_report (d : Details) : string :=
  "Output shape: " ++ nl ++ " " ++ str_details d ++ nl.

(** ** Assumptions one may make of a runtime *)

(** What a call that is given the path [p] can see of the world if it
    reads nothing but that file and the runtime's own objects. *)
Definition view (p : string) (w : World) : option string * Heap :=
  (files w p, heap w).

Definition reads_only {A : Type} (p : string)
    (op : World -> result A * World) : Prop :=
  forall w1 w2, view p w1 = view p w2 ->
    fst (op w1) = fst (op w2) /\ view p (snd (op w1)) = view p (snd (op w2)).

(** The constructor reads the model file it is given; the methods work
    on the interpreter object. *)
Definition model_reader : Prop :=
  (forall p, reads_only p (Interpreter tf p)) /\
  (forall p h, reads_only p (allocate_tensors tf h)) /\
  (forall p h, reads_only p (get_input_details tf h)) /\
  (forall p h, reads_only p (get_output_details tf h)).

(** What outlives the process: command line and environment as the
    parent sees them, and the file system. *)
Definition same_outside (w1 w2 : World) : Prop :=
  argv w1 = argv w2 /\ environ w1 = environ w2 /\
  forall p, files w1 p = files w2 p.

Definition keeps_outside {A : Type} (op : World -> result A * World) : Prop :=
  forall w, same_outside (snd (op w)) w.

(** The runtime only reads: no call writes a file. *)
Definition read_only_runtime : Prop :=
  (forall p, keeps_outside (Interpreter tf p)) /\
  (forall h, keeps_outside (allocate_tensors tf h)) /\
  (forall h, keeps_outside (get_input_details tf h)) /\
  (forall h, keeps_outside (get_output_details tf h)).

(** An action of the script that changes nothing outside the process. *)
Definition leaves_outside {A : Type} (m : M A) : Prop :=
  forall st, same_outside (world (snd (m st))) (world st).

(** Two states that a reader of the file at [p] cannot tell apart. *)
Definition alike (p : string) (st1 st2 : State) : Prop :=
  view p (world st1) = view p (world st2) /\
  stdout st1 = stdout st2 /\
  trace st1 = trace st2.

(** An action that behaves alike in states that are alike. *)
Definition oblivious {A : Type} (p : string) (m : M A) : Prop :=
  forall st1 st2, alike p st1 st2 ->
    fst (m st1) = fst (m st2) /\ alike p (snd (m st1)) (snd (m st2)).

End Script.

Arguments VNone {Handle Details}.
Arguments VStr {Handle Details} s.
Arguments VInterpreter {Handle Details} h.
Arguments VDetails {Handle Details} d.
Arguments mkWorld {Heap} argv environ files heap.
Arguments argv {Heap} w.
Arguments environ {Heap} w.
Arguments files {Heap} w p.
Arguments heap {Heap} w.
Arguments Return {Exn A} a.
Arguments Raise {Exn A} e.
Arguments call_Interpreter {Handle Details} model_path.
Arguments call_allocate_tensors {Handle Details} self.
Arguments call_get_input_details {Handle Details} self.
Arguments call_get_output_details {Handle Details} self.
Arguments call_print {Handle Details} args.
Arguments Returned {Exn Handle Details} v.
Arguments Raised {Exn Handle Details} e.
Arguments mkState {Exn Handle Details Heap} world stdout trace.
Arguments world {Exn Handle Details Heap} s.
Arguments stdout {Exn Handle Details Heap} s.
Arguments trace {Exn Handle Details Heap} s.
Arguments mkRuntime {Exn Handle Details Heap}.
Arguments Interpreter {Exn Handle Details Heap} r model_path w.
Arguments allocate_tensors {Exn Handle Details Heap} r self w.
Arguments get_input_details {Exn Handle Details Heap} r self w.
Arguments get_output_details {Exn Handle Details Heap} r self w.
Arguments ret {Exn Handle Details Heap A} a st.
Arguments bind {Exn Handle Details Heap A B} m k st.
Arguments log {Exn Handle Details Heap} c o w st.
Arguments invoke {Exn Handle Details Heap A} c inj op st.
Arguments str {Handle Details} str_details str_interpreter v.
Arguments print_text {Handle Details} str_details str_interpreter args.
Arguments print {Exn Handle Details Heap} str_details str_interpreter stdout_fault args st.
Arguments new_Interpreter {Exn Handle Details Heap} tf model_path st.
Arguments do_allocate_tensors {Exn Handle Details Heap} tf self st.
Arguments do_get_input_details {Exn Handle Details Heap} tf self st.
Arguments do_get_output_details {Exn Handle Details Heap} tf self st.
Arguments script {Exn Handle Details Heap} tf str_details str_interpreter stdout_fault st.
Arguments boot {Exn Handle Details Heap} fresh_heap a e f.
Arguments run {Exn Handle Details Heap} tf str_details str_interpreter stdout_fault fresh_heap a e f.
Arguments succeeded {Exn Handle Details} ev.
Arguments all_succeed {Exn Handle Details} tr.
Arguments is_print {Handle Details} c.
Arguments runtime_calls {Exn Handle Details} tr.
Arguments reports {Exn Handle Details} str_details str_interpreter tr.
Arguments constructions {Exn Handle Details} tr.
Arguments runtime_sequence {Handle Details} h.
Arguments input_report {Details} str_details d.
Arguments output_report {Details} str_details d.
Arguments view {Heap} p w.
Arguments reads_only {Exn Heap A} p op.
Arguments model_reader {Exn Handle Details Heap} tf.
Arguments same_outside {Heap} w1 w2.
Arguments keeps_outside {Exn Heap A} op.
Arguments read_only_runtime {Exn Handle Details Heap} tf.
Arguments leaves_outside {Exn Handle Details Heap A} m.
Arguments alike {Exn Handle Details Heap} p st1 st2.
Arguments oblivious {Exn Handle Details Heap A} p m.

(** ** The text of the script *)

Module Source.

(** The six physical lines of the file.  The second one carries, after
    the assignment, a comment that runs to the end of the line. *)
Definition line1 : string := "import tensorflow as tf".

Definition line2_code : string :=
  "TFLITE_PATH = " ++ dq ++ TFLITE_PATH ++ dq ++ " ".

Definition line2_comment : string :=
  "# use absolute path here for tflite model.interpreter = tf.compat.v1.lite.Interpreter(model_path=TFLITE_PATH)".

Definition line2 : string := line2_code ++ line2_comment.

Definition line3 : string :=
  "interpreter = tf.compat.v1.lite.Interpreter(model_path=TFLITE_PATH)".

Definition line4 : string := "interpreter.allocate_tensors()".

Definition line5 : string :=
  "print(" ++ dq ++ "Input shape :\n" ++ dq
  ++ " , interpreter.get_input_details())".

Definition line6 : string :=
  "print(" ++ dq ++ "Output shape: \n" ++ dq
  ++ ", interpreter.get_output_details())".

Definition text : list string :=
  [line1; line2; line3; line4; line5; line6].

(** The same file with the comment of the second line taken out. *)
Definition text_without_comment : list string :=
  [line1; line2_code; line3; line4; line5; line6].

(** Python's rule for comments: a hash that is not inside a string
    literal starts a comment, which ends with the physical line.  The
    scanner remembers whether it is inside a literal, which quote closes
    it, and whether the previous character was a backslash. *)
Inductive mode : Type :=
| Code
| Literal (quote : ascii)
| Escape (quote : ascii).

Definition hash : ascii := "#"%char.
Definition backslash : ascii := "\"%char.
Definition single_quote : ascii := "'"%char.
Definition double_quote : ascii := ascii_of_nat 34.

Fixpoint scan (m : mode) (s : string) : string :=
  match s with
  | EmptyString => EmptyString
  | String c rest =>
      match m with
      | Code =>
          if Ascii.eqb c hash then EmptyString
          else if Ascii.eqb c single_quote || Ascii.eqb c double_quote
               then String c (scan (Literal c) rest)
               else String c (scan Code rest)
      | Literal q =>
          if Ascii.eqb c backslash then String c (scan (Escape q) rest)
          else if Ascii.eqb c q then String c (scan Code rest)
               else String c (scan (Literal q) rest)
      | Escape q => String c (scan (Literal q) rest)
      end
  end.

(** The part of a physical line that is code. *)
Definition code_of (line : string) : string := scan Code line.

(** How many times [pat] occurs in [s]. *)
Fixpoint occurrences (pat s : string) : nat :=
  match s with
  | EmptyString => 0
  | String _ rest =>
      (if String.prefix pat s then 1 else 0) + occurrences pat rest
  end.

Definition constructor_call : string := "tf.compat.v1.lite.Interpreter(".

Definition total (f : string -> nat) (lines : list string) : nat :=
  fold_right (fun l n => f l + n) 0 lines.

End Source.

(** ** A small runtime to run the script on

    Model files are texts; a few of them make one of the calls raise.
    Interpreter objects are numbered in the order of their construction
    and the heap lists the models they hold.  Exceptions are their
    messages, and tensor details are already rendered. *)

Module Toy.

Definition Exn : Type := string.
Definition Handle : Type := nat.
Definition Details : Type := string.
Definition Heap : Type := list string.

Definition model_of (h : Handle) (w : World Heap) : string :=
  nth h (heap w) "".

Definition toy_Interpreter (p : string) (w : World Heap)
    : result Exn Handle * World Heap :=
  match files w p with
  | None => (Raise "ValueError: Could not open the model file", w)
  | Some m =>
      if String.eqb m "" then (Raise "ValueError: Model is malformed", w)
      else (Return (List.length (heap w)),
            mkWorld (argv w) (environ w) (files w) (heap w ++ [m])%list)
  end.

Definition toy_allocate_tensors (h : Handle) (w : World Heap)
    : result Exn unit * World Heap :=
  if String.eqb (model_of h w) "too-large"
  then (Raise "RuntimeError: Failed to allocate tensors", w)
  else (Return tt, w).

Definition toy_get_input_details (h : Handle) (w : World Heap)
    : result Exn Details * World Heap :=
  if String.eqb (model_of h w) "no-input"
  then (Raise "ValueError: no input tensor", w)
  else (Return "[{'name': 'input', 'shape': [1, 3, 40]}]", w).

Definition toy_get_output_details (h : Handle) (w : World Heap)
    : result Exn Details * World Heap :=
  if String.eqb (model_of h w) "no-output"
  then (Raise "ValueError: no output tensor", w)
  else (Return "[{'name': 'output', 'shape': [1, 1]}]", w).

Definition tf : Runtime Exn Handle Details Heap :=
  mkRuntime toy_Interpreter toy_allocate_tensors
            toy_get_input_details toy_get_output_details.

Definition str_details (d : Details) : string := d.
Definition str_interpreter (h : Handle) : string := "<Interpreter>".

(** Standard output that never fails, and one that is closed as soon as
    something has been written to it. *)
Definition open_stdout (written text : string) : option Exn := None.

Definition closing_stdout (written text : string) : option Exn :=
  if String.eqb written "" then None else Some "BrokenPipeError".

(** A file system that holds the model [m] at the script's path and
    nothing else, and an empty one. *)
Definition disk (m : string) (p : string) : option string :=
  if String.eqb p TFLITE_PATH then Some m else None.

Definition empty_disk (p : string) : option string := None.

(** A file system with the model [m] at the script's path and other files
    beside it. *)
Definition busy_disk (m : string) (p : string) : option string :=
  if String.eqb p TFLITE_PATH then Some m
  else if String.eqb p "/etc/hostname" then Some "pixel"
  else None.

Definition run (a : list string) (e : list (string * string))
    (f : string -> option string) : result Exn unit * State Exn Handle Details Heap :=
  run tf str_details str_interpreter open_stdout [] a e f.

End Toy.

(** * Properties of the runs *)

(** Symbolic execution of a run: unfold the script and split on the
    outcome of each call in turn.  A run ends at the first call that raises,
    so seven runs are left: one that fails at each of the six calls, and
    the one in which all of them return. *)
Ltac run_script :=
  unfold run, script, boot, bind, new_Interpreter, do_allocate_tensors,
    do_get_input_details, do_get_output_details, invoke, print, log;
  cbn;
  repeat (match goal with
          | |- context [Interpreter ?t ?p ?w] =>
              destruct (Interpreter t p w) as [[? | ?] ?] eqn:?
          | |- context [allocate_tensors ?t ?h ?w] =>
              destruct (allocate_tensors t h w) as [[? | ?] ?] eqn:?
          | |- context [get_input_details ?t ?h ?w] =>
              destruct (get_input_details t h w) as [[? | ?] ?] eqn:?
          | |- context [get_output_details ?t ?h ?w] =>
              destruct (get_output_details t h w) as [[? | ?] ?] eqn:?
          | |- context [match ?fault ?written ?text with Some _ => _ | None => _ end] =>
              destruct (fault written text) eqn:?
          end; cbn).

(** Membership in a log that is known event by event. *)
Ltac which_event H :=
  cbn in H;
  repeat (destruct H as [H | H]; [try discriminate H |]);
  try contradiction;
  try discriminate H.

Section Properties.

Context {Exn Handle Details Heap : Type}.
Variable tf : Runtime Exn Handle Details Heap.
Variable str_details : Details -> string.
Variable str_interpreter : Handle -> string.
Variable stdout_fault : string -> string -> option Exn.
Variable fresh_heap : Heap.

Local Abbreviation outcome_of a e f :=
  (fst (run tf str_details str_interpreter stdout_fault fresh_heap a e f)).
Local Abbreviation final a e f :=
  (snd (run tf str_details str_interpreter stdout_fault fresh_heap a e f)).
Local Abbreviation reports_of tr := (reports str_details str_interpreter tr).

(** C1.  In every run in which no call raises, the log of the calls is
    exactly: the constructor on the hard-coded path, [allocate_tensors]
    on the object it returned, [get_input_details] and the [print] of
    its result, [get_output_details] and the [print] of its result; each
    once, in this order, and the script returns. *)
Theorem script_call_sequence (a : list string) (e : list (string * string))
    (f : string -> option string) :
  all_succeed (trace (final a e f)) = true ->
  exists h d_in d_out,
    trace (final a e f) =
      [ (call_Interpreter TFLITE_PATH, Returned (VInterpreter h));
        (call_allocate_tensors h, Returned VNone);
        (call_get_input_details h, Returned (VDetails d_in));
        (call_print [VStr ("Input shape :" ++ nl); VDetails d_in],
         Returned VNone);
        (call_get_output_details h, Returned (VDetails d_out));
        (call_print [VStr ("Output shape: " ++ nl); VDetails d_out],
         Returned VNone) ]
    /\ outcome_of a e f = Return tt.
Proof.
  run_script; intros Hok; try discriminate Hok.
  eexists _, _, _; split; reflexivity.
Qed.

(** C3.  In every run in which no call raises, exactly two reports are
    written, the input details first and the output details second, and
    standard output holds these two texts and nothing else. *)
Theorem two_reports (a : list string) (e : list (string * string))
    (f : string -> option string) :
  all_succeed (trace (final a e f)) = true ->
  exists h d_in d_out,
    In (call_get_input_details h, Returned (VDetails d_in))
       (trace (final a e f)) /\
    In (call_get_output_details h, Returned (VDetails d_out))
       (trace (final a e f)) /\
    reports_of (trace (final a e f)) =
      [input_report str_details d_in; output_report str_details d_out] /\
    stdout (final a e f) =
      input_report str_details d_in ++ output_report str_details d_out.
Proof.
  run_script; intros Hok; try discriminate Hok.
  eexists _, _, _; repeat split; cbn; auto 10.
Qed.

(** C4.  Whenever a call of a run raises, the run ends with that very
    exception: the failing call is the last event of the log (nothing is
    done after it), every call before it returned, and standard output
    holds the reports printed before it and nothing more. *)
Theorem exception_propagates (a : list string) (e : list (string * string))
    (f : string -> option string) (c : call Handle Details) (x : Exn) :
  In (c, Raised x) (trace (final a e f)) ->
  outcome_of a e f = Raise x /\
  exists before,
    trace (final a e f) = (before ++ [(c, Raised x)])%list /\
    all_succeed before = true /\
    stdout (final a e f) = String.concat "" (reports_of before).
Proof.
  run_script; intros Hin; which_event Hin;
    injection Hin as <- <-; (split; [reflexivity |]);
    match goal with
    | |- exists before, ?tr = _ /\ _ => exists (removelast tr)
    end;
    repeat split.
Qed.

(** C5.  When the constructor or [allocate_tensors] raises, nothing has
    been written to standard output: no [print] was reached. *)
Theorem no_output_when_loading_fails (a : list string)
    (e : list (string * string)) (f : string -> option string) (x : Exn) :
  In (call_Interpreter TFLITE_PATH, Raised x) (trace (final a e f)) \/
  (exists h, In (call_allocate_tensors h, Raised x) (trace (final a e f))) ->
  stdout (final a e f) = "" /\
  reports_of (trace (final a e f)) = [] /\
  (forall args o, ~ In (call_print args, o) (trace (final a e f))) /\
  outcome_of a e f = Raise x.
Proof.
  run_script; intros [Hin | [h' Hin]]; which_event Hin;
    injection Hin as <-; try subst;
    (repeat split; try reflexivity);
    intros args o Hp; which_event Hp.
Qed.


(** C9.  The constructor is called exactly once in every run.  The second
    occurrence of the constructor call in the text of the file lies in the
    comment of the second line: the code of the file is the code of the
    file without that comment, and in it the call occurs once. *)
Theorem one_interpreter_constructed (a : list string)
    (e : list (string * string)) (f : string -> option string) :
  constructions (trace (final a e f)) = 1 /\
  map Source.code_of Source.text =
    map Source.code_of Source.text_without_comment /\
  Source.code_of Source.line2 = Source.line2_code /\
  Source.total (Source.occurrences Source.constructor_call) Source.text = 2 /\
  Source.total (Source.occurrences Source.constructor_call)
               (map Source.code_of Source.text) = 1.
Proof.
  split; [run_script; reflexivity |].
  split; [vm_compute; reflexivity |].
  split; [vm_compute; reflexivity |].
  split; vm_compute; reflexivity.
Qed.

(** The events of a run, as the script's lines produce them: a call that
    returned, with the value the later lines use, or a call that raised. *)
Local Abbreviation constructed h :=
  (call_Interpreter TFLITE_PATH, Returned (VInterpreter h)).
Local Abbreviation allocated h := (call_allocate_tensors h, Returned VNone).
Local Abbreviation got_input h d :=
  (call_get_input_details h, Returned (VDetails d)).
Local Abbreviation printed_input d :=
  (call_print [VStr ("Input shape :" ++ nl); VDetails d], Returned VNone).
Local Abbreviation got_output h d :=
  (call_get_output_details h, Returned (VDetails d)).
Local Abbreviation printed_output d :=
  (call_print [VStr ("Output shape: " ++ nl); VDetails d], Returned VNone).

(** Pick the disjunct that [tac] proves. *)
Ltac pick tac := first [ solve [tac] | left; solve [tac] | right; pick tac ].

(** C2, as the code has it.  The calls into the runtime are four, not
    three, and the whole behaviour of a run is one line of calls: the
    constructor on [TFLITE_PATH], then [allocate_tensors],
    [get_input_details] and [get_output_details] on the object that the
    constructor returned, the result of each of the two queries being
    passed to [print] as soon as it is returned.  A run is this line up to
    the first call that raises, which ends it with that exception, or the
    whole line, and then it returns; standard output holds what the
    completed prints wrote.  So the calls into the runtime are an initial
    segment of the four, and all four in every run that returns. *)
Theorem four_runtime_calls (a : list string) (e : list (string * string))
    (f : string -> option string) :
  ((exists x,
      outcome_of a e f = Raise x /\
      trace (final a e f) = [(call_Interpreter TFLITE_PATH, Raised x)]) \/
   (exists h x,
      outcome_of a e f = Raise x /\
      trace (final a e f) =
        [constructed h; (call_allocate_tensors h, Raised x)]) \/
   (exists h x,
      outcome_of a e f = Raise x /\
      trace (final a e f) =
        [constructed h; allocated h; (call_get_input_details h, Raised x)]) \/
   (exists h d_in x,
      outcome_of a e f = Raise x /\
      trace (final a e f) =
        [constructed h; allocated h; got_input h d_in;
         (call_print [VStr ("Input shape :" ++ nl); VDetails d_in],
          Raised x)]) \/
   (exists h d_in x,
      outcome_of a e f = Raise x /\
      trace (final a e f) =
        [constructed h; allocated h; got_input h d_in; printed_input d_in;
         (call_get_output_details h, Raised x)]) \/
   (exists h d_in d_out x,
      outcome_of a e f = Raise x /\
      trace (final a e f) =
        [constructed h; allocated h; got_input h d_in; printed_input d_in;
         got_output h d_out;
         (call_print [VStr ("Output shape: " ++ nl); VDetails d_out],
          Raised x)]) \/
   (exists h d_in d_out,
      outcome_of a e f = Return tt /\
      trace (final a e f) =
        [constructed h; allocated h; got_input h d_in; printed_input d_in;
         got_output h d_out; printed_output d_out])) /\
  stdout (final a e f) = String.concat "" (reports_of (trace (final a e f))) /\
  (runtime_calls (trace (final a e f)) = [call_Interpreter TFLITE_PATH] \/
   exists h n, 2 <= n <= 4 /\
     runtime_calls (trace (final a e f)) = firstn n (runtime_sequence h)) /\
  (outcome_of a e f = Return tt ->
   exists h, runtime_calls (trace (final a e f)) = runtime_sequence h).
Proof.
  run_script;
    (split; [pick ltac:(repeat eexists) |]);
    (split; [reflexivity |]);
    (split; [| intros Hret; try discriminate Hret; eexists; reflexivity]);
    first [ left; reflexivity
          | right; eexists _, 2; split; [lia | reflexivity]
          | right; eexists _, 3; split; [lia | reflexivity]
          | right; eexists _, 4; split; [lia | reflexivity] ].
Qed.

(** *** Nothing changes outside the process *)

Lemma same_outside_refl (w : World Heap) : same_outside w w.
Proof. repeat split. Qed.

Lemma same_outside_trans (w1 w2 w3 : World Heap) :
  same_outside w1 w2 -> same_outside w2 w3 -> same_outside w1 w3.
Proof.
  intros (Ha & He & Hf) (Ha' & He' & Hf').
  split; [congruence | split; [congruence |]].
  intros p; rewrite Hf; apply Hf'.
Qed.

Lemma leaves_outside_bind {A B : Type}
    (m : M Exn Handle Details Heap A) (k : A -> M Exn Handle Details Heap B) :
  leaves_outside m -> (forall x, leaves_outside (k x)) ->
  leaves_outside (bind m k).
Proof.
  intros Hm Hk st; unfold bind.
  specialize (Hm st); destruct (m st) as [[x | x] st']; cbn in *; auto.
  eapply same_outside_trans; [apply Hk | exact Hm].
Qed.

Lemma leaves_outside_invoke {A : Type} (c : call Handle Details)
    (inj : A -> value Handle Details)
    (op : World Heap -> result Exn A * World Heap) :
  keeps_outside op -> leaves_outside (invoke c inj op).
Proof.
  intros Hop st; unfold invoke.
  specialize (Hop (world st)); destruct (op (world st)) as [[x | x] w];
    exact Hop.
Qed.

Lemma leaves_outside_print (args : list (value Handle Details)) :
  leaves_outside (Heap := Heap)
    (print str_details str_interpreter stdout_fault args).
Proof.
  intros st; unfold print.
  destruct (stdout_fault _ _); apply same_outside_refl.
Qed.

Lemma script_leaves_outside :
  read_only_runtime tf ->
  leaves_outside (script tf str_details str_interpreter stdout_fault).
Proof.
  intros (Hnew & Halloc & Hin & Hout); unfold script.
  repeat (apply leaves_outside_bind; [| intros ?]);
    first [ apply leaves_outside_print
          | apply leaves_outside_invoke; auto ].
Qed.

(** C7.  With a runtime that only reads, a run leaves the command line,
    the environment and every file, the model file among them, as it
    found them: what it changes is standard output. *)
Theorem only_stdout_changes (a : list string) (e : list (string * string))
    (f : string -> option string) :
  read_only_runtime tf ->
  argv (world (final a e f)) = a /\
  environ (world (final a e f)) = e /\
  (forall p, files (world (final a e f)) p = f p) /\
  files (world (final a e f)) TFLITE_PATH = f TFLITE_PATH.
Proof.
  intros Hro.
  destruct (script_leaves_outside Hro (boot fresh_heap a e f))
    as (Ha & He & Hf).
  repeat split; auto.
Qed.

(** *** The output is a function of the model file *)

Lemma oblivious_bind {A B : Type} (p : string)
    (m : M Exn Handle Details Heap A) (k : A -> M Exn Handle Details Heap B) :
  oblivious p m -> (forall x, oblivious p (k x)) -> oblivious p (bind m k).
Proof.
  intros Hm Hk st1 st2 Hst; unfold bind.
  destruct (Hm st1 st2 Hst) as [Hr Ha].
  destruct (m st1) as [[x | x] s1], (m st2) as [[y | y] s2];
    cbn in *; try discriminate Hr; injection Hr as ->.
  - apply Hk; exact Ha.
  - split; [reflexivity | exact Ha].
Qed.

Lemma oblivious_invoke {A : Type} (p : string) (c : call Handle Details)
    (inj : A -> value Handle Details)
    (op : World Heap -> result Exn A * World Heap) :
  reads_only p op -> oblivious p (invoke c inj op).
Proof.
  intros Hop st1 st2 (Hv & Ho & Ht); unfold invoke.
  destruct (Hop _ _ Hv) as [Hr Hv'].
  destruct (op (world st1)) as [[x | x] w1], (op (world st2)) as [[y | y] w2];
    cbn in *; try discriminate Hr; injection Hr as ->;
    (split; [reflexivity |]); unfold alike, log; cbn;
    rewrite Ho, Ht; auto.
Qed.

Lemma oblivious_print (p : string) (args : list (value Handle Details)) :
  oblivious (Heap := Heap) p
    (print str_details str_interpreter stdout_fault args).
Proof.
  intros st1 st2 (Hv & Ho & Ht); unfold print, alike, log.
  rewrite Ho, Ht; destruct (stdout_fault _ _); cbn; auto.
Qed.

Lemma script_oblivious :
  model_reader tf ->
  oblivious TFLITE_PATH (script tf str_details str_interpreter stdout_fault).
Proof.
  intros (Hnew & Halloc & Hin & Hout); unfold script.
  repeat (apply oblivious_bind; [| intros ?]);
    first [ apply oblivious_print
          | apply oblivious_invoke; auto ].
Qed.

Lemma boot_alike (a1 a2 : list string) (e1 e2 : list (string * string))
    (f1 f2 : string -> option string) :
  f1 TFLITE_PATH = f2 TFLITE_PATH ->
  alike (Exn := Exn) (Handle := Handle) (Details := Details) TFLITE_PATH
        (boot fresh_heap a1 e1 f1) (boot fresh_heap a2 e2 f2).
Proof.
  intros Hf; unfold alike, boot, view; cbn; rewrite Hf; auto.
Qed.

(** C6.  With a runtime that reads the model file it is given and nothing
    else, two runs that find the same contents at [TFLITE_PATH] write the
    same text, whatever their command lines, their environments and the
    other files are. *)
Theorem output_depends_on_model_only (a1 a2 : list string)
    (e1 e2 : list (string * string)) (f1 f2 : string -> option string) :
  model_reader tf ->
  f1 TFLITE_PATH = f2 TFLITE_PATH ->
  stdout (final a1 e1 f1) = stdout (final a2 e2 f2).
Proof.
  intros Htf Hf.
  destruct (script_oblivious Htf _ _ (boot_alike a1 a2 e1 e2 f1 f2 Hf))
    as (_ & _ & Ho & _).
  exact Ho.
Qed.


(** *** Where the arguments of the calls come from *)

(** The constructor is only ever given the hard-coded path, and every
    method is called on the object that the constructor returned: the
    script works on one interpreter and opens no other file. *)
Theorem calls_use_the_constructed_object (a : list string)
    (e : list (string * string)) (f : string -> option string)
    (c : call Handle Details) (o : outcome Exn Handle Details) :
  In (c, o) (trace (final a e f)) ->
  match c with
  | call_Interpreter p => p = TFLITE_PATH
  | call_allocate_tensors h
  | call_get_input_details h
  | call_get_output_details h =>
      In (call_Interpreter TFLITE_PATH, Returned (VInterpreter h))
         (trace (final a e f))
  | call_print _ => True
  end.
Proof.
  run_script; intros Hin; which_event Hin;
    injection Hin as <- <-; cbn; auto.
Qed.

(** Whatever [print] is called with, whether it returns or raises, is one
    of the script's two labels followed by the details that the matching
    query returned earlier in the same run. *)
Theorem prints_what_the_runtime_returned (a : list string)
    (e : list (string * string)) (f : string -> option string)
    (args : list (value Handle Details)) (o : outcome Exn Handle Details) :
  In (call_print args, o) (trace (final a e f)) ->
  exists h d,
    (args = [VStr ("Input shape :" ++ nl); VDetails d] /\
     In (call_get_input_details h, Returned (VDetails d))
        (trace (final a e f))) \/
    (args = [VStr ("Output shape: " ++ nl); VDetails d] /\
     In (call_get_output_details h, Returned (VDetails d))
        (trace (final a e f))).
Proof.
  run_script; intros Hin; which_event Hin;
    injection Hin as <- <-; eexists _, _;
    first [ left; split; [reflexivity | cbn; auto 10]
          | right; split; [reflexivity | cbn; auto 10] ].
Qed.

(** *** What standard output can hold *)


(** A run returns exactly when no call raised, and exactly when both
    reports were printed: a normal end of the script means the whole
    text is on standard output, and an exception means it is not. *)
Theorem returns_iff_both_reports (a : list string)
    (e : list (string * string)) (f : string -> option string) :
  (outcome_of a e f = Return tt <-> all_succeed (trace (final a e f)) = true) /\
  (outcome_of a e f = Return tt <->
   List.length (reports_of (trace (final a e f))) = 2).
Proof.
  run_script; (split; split; intros H; try discriminate H; reflexivity).
Qed.

(** *** The script as a step of a longer session *)




(** In every run no call is made a second time, nothing is retried, and
    the log has between one and six calls. *)
Theorem no_call_is_repeated (a : list string) (e : list (string * string))
    (f : string -> option string) :
  let st := snd (run tf str_details str_interpreter stdout_fault fresh_heap
                     a e f) in
  NoDup (map fst (trace st)) /\ 1 <= List.length (trace st) <= 6.
Proof.
  run_script; (split; [| cbn; lia]);
    repeat (constructor; [cbn; intuition discriminate |]);
    constructor.
Qed.

End Properties.

(** * The script on the small runtime *)

Lemma toy_model_reader : model_reader Toy.tf.
Proof.
  unfold model_reader, reads_only, view.
  repeat match goal with |- _ /\ _ => split end; intros;
    match goal with
    | Hv : (_, _) = (_, _) |- _ => injection Hv as Hf Hh
    end;
    cbn; unfold Toy.toy_Interpreter, Toy.toy_allocate_tensors,
      Toy.toy_get_input_details, Toy.toy_get_output_details, Toy.model_of;
    rewrite ?Hf, ?Hh;
    repeat match goal with
           | |- context [match files ?w ?p with _ => _ end] =>
               destruct (files w p) eqn:?
           | |- context [if String.eqb ?x ?y then _ else _] =>
               destruct (String.eqb x y) eqn:?
           end;
    cbn; split; congruence.
Qed.

Lemma toy_read_only : read_only_runtime Toy.tf.
Proof.
  repeat split; cbn;
    unfold Toy.toy_Interpreter, Toy.toy_allocate_tensors,
      Toy.toy_get_input_details, Toy.toy_get_output_details;
    repeat match goal with
           | |- context [match files ?w ?p with _ => _ end] =>
               destruct (files w p)
           | |- context [if String.eqb ?x ?y then _ else _] =>
               destruct (String.eqb x y)
           end;
    reflexivity.
Qed.

(** A run on a well-formed model. *)
Lemma script_call_sequence_witness :
  all_succeed (trace (snd (Toy.run [] [] (Toy.disk "okay_nabu")))) = true /\
  exists h d_in d_out,
    trace (snd (Toy.run [] [] (Toy.disk "okay_nabu"))) =
      [ (call_Interpreter TFLITE_PATH, Returned (VInterpreter h));
        (call_allocate_tensors h, Returned VNone);
        (call_get_input_details h, Returned (VDetails d_in));
        (call_print [VStr ("Input shape :" ++ nl); VDetails d_in],
         Returned VNone);
        (call_get_output_details h, Returned (VDetails d_out));
        (call_print [VStr ("Output shape: " ++ nl); VDetails d_out],
         Returned VNone) ]
    /\ fst (Toy.run [] [] (Toy.disk "okay_nabu")) = Return tt.
Proof.
  split; [vm_compute; reflexivity |].
  apply (script_call_sequence Toy.tf Toy.str_details Toy.str_interpreter
           Toy.open_stdout [] [] [] (Toy.disk "okay_nabu")).
  vm_compute; reflexivity.
Defined.

Lemma two_reports_witness :
  all_succeed (trace (snd (Toy.run [] [] (Toy.disk "okay_nabu")))) = true /\
  exists h d_in d_out,
    In (call_get_input_details h, Returned (VDetails d_in))
       (trace (snd (Toy.run [] [] (Toy.disk "okay_nabu")))) /\
    In (call_get_output_details h, Returned (VDetails d_out))
       (trace (snd (Toy.run [] [] (Toy.disk "okay_nabu")))) /\
    reports Toy.str_details Toy.str_interpreter
            (trace (snd (Toy.run [] [] (Toy.disk "okay_nabu")))) =
      [input_report Toy.str_details d_in; output_report Toy.str_details d_out] /\
    stdout (snd (Toy.run [] [] (Toy.disk "okay_nabu"))) =
      input_report Toy.str_details d_in ++ output_report Toy.str_details d_out.
Proof.
  split; [vm_compute; reflexivity |].
  apply (two_reports Toy.tf Toy.str_details Toy.str_interpreter
           Toy.open_stdout [] [] [] (Toy.disk "okay_nabu")).
  vm_compute; reflexivity.
Defined.

(** A run without the model file: the constructor raises. *)
Lemma exception_propagates_witness :
  In (call_Interpreter TFLITE_PATH,
      Raised "ValueError: Could not open the model file")
     (trace (snd (Toy.run [] [] Toy.empty_disk))) /\
  fst (Toy.run [] [] Toy.empty_disk) =
    Raise "ValueError: Could not open the model file" /\
  exists before,
    trace (snd (Toy.run [] [] Toy.empty_disk)) =
      (before ++ [(call_Interpreter TFLITE_PATH,
                   Raised "ValueError: Could not open the model file")])%list /\
    all_succeed before = true /\
    stdout (snd (Toy.run [] [] Toy.empty_disk)) =
      String.concat "" (reports Toy.str_details Toy.str_interpreter before).
Proof.
  split; [vm_compute; left; reflexivity |].
  apply (exception_propagates Toy.tf Toy.str_details Toy.str_interpreter
           Toy.open_stdout [] [] [] Toy.empty_disk).
  vm_compute; left; reflexivity.
Defined.

(** A run on a model whose tensors cannot be allocated. *)
Lemma no_output_when_loading_fails_witness :
  (exists h, In (call_allocate_tensors h,
                 Raised "RuntimeError: Failed to allocate tensors")
                (trace (snd (Toy.run [] [] (Toy.disk "too-large"))))) /\
  stdout (snd (Toy.run [] [] (Toy.disk "too-large"))) = "" /\
  fst (Toy.run [] [] (Toy.disk "too-large")) =
    Raise "RuntimeError: Failed to allocate tensors".
Proof.
  assert (Hin : exists h : Toy.Handle,
             In (call_allocate_tensors h,
                 Raised "RuntimeError: Failed to allocate tensors")
                (trace (snd (Toy.run [] [] (Toy.disk "too-large"))))).
  { exists 0; vm_compute; right; left; reflexivity. }
  split; [exact Hin |].
  destruct (no_output_when_loading_fails Toy.tf Toy.str_details
              Toy.str_interpreter Toy.open_stdout [] [] []
              (Toy.disk "too-large") _ (or_intror Hin))
    as (Hout & _ & _ & Hres).
  split; assumption.
Defined.


(** C2 as worded does not hold: on a well-formed model the script
    makes four calls into the runtime, so no sequence of three calls is
    the sequence of its calls. *)
Lemma three_runtime_calls_refuted :
  List.length
    (runtime_calls (trace (snd (Toy.run [] [] (Toy.disk "okay_nabu"))))) = 4 /\
  ~ exists c1 c2 c3,
      runtime_calls (trace (snd (Toy.run [] [] (Toy.disk "okay_nabu")))) =
        [c1; c2; c3].
Proof.
  split; [vm_compute; reflexivity |].
  intros (c1 & c2 & c3 & H).
  apply (f_equal (@List.length _)) in H.
  vm_compute in H; discriminate H.
Qed.

(** A run with a command line, an environment and other files. *)
Lemma only_stdout_changes_witness :
  read_only_runtime Toy.tf /\
  argv (world (snd (Toy.run ["tflite-model-shape-checker.py"]
                            [("HOME", "/home/michael")]
                            (Toy.busy_disk "okay_nabu")))) =
    ["tflite-model-shape-checker.py"] /\
  environ (world (snd (Toy.run ["tflite-model-shape-checker.py"]
                               [("HOME", "/home/michael")]
                               (Toy.busy_disk "okay_nabu")))) =
    [("HOME", "/home/michael")] /\
  (forall p, files (world (snd (Toy.run ["tflite-model-shape-checker.py"]
                                        [("HOME", "/home/michael")]
                                        (Toy.busy_disk "okay_nabu")))) p =
             Toy.busy_disk "okay_nabu" p) /\
  files (world (snd (Toy.run ["tflite-model-shape-checker.py"]
                             [("HOME", "/home/michael")]
                             (Toy.busy_disk "okay_nabu")))) TFLITE_PATH =
    Toy.busy_disk "okay_nabu" TFLITE_PATH.
Proof.
  split; [exact toy_read_only |].
  apply (only_stdout_changes Toy.tf Toy.str_details Toy.str_interpreter
           Toy.open_stdout [] ["tflite-model-shape-checker.py"]
           [("HOME", "/home/michael")] (Toy.busy_disk "okay_nabu")
           toy_read_only).
Defined.

(** Two runs on the same model that differ in everything else. *)
Lemma output_depends_on_model_only_witness :
  model_reader Toy.tf /\
  Toy.disk "okay_nabu" TFLITE_PATH = Toy.busy_disk "okay_nabu" TFLITE_PATH /\
  stdout (snd (Toy.run [] [] (Toy.disk "okay_nabu"))) =
  stdout (snd (Toy.run ["checker.py"; "--verbose"]
                       [("TF_CPP_MIN_LOG_LEVEL", "3")]
                       (Toy.busy_disk "okay_nabu"))).
Proof.
  split; [exact toy_model_reader |].
  split; [vm_compute; reflexivity |].
  apply (output_depends_on_model_only Toy.tf Toy.str_details
           Toy.str_interpreter Toy.open_stdout []
           [] ["checker.py"; "--verbose"]
           [] [("TF_CPP_MIN_LOG_LEVEL", "3")]
           (Toy.disk "okay_nabu") (Toy.busy_disk "okay_nabu")
           toy_model_reader).
  vm_compute; reflexivity.
Defined.


(** The text that a run on a well-formed model leaves on standard output. *)
Example shape_report :
  stdout (snd (Toy.run [] [] (Toy.disk "okay_nabu"))) =
    "Input shape :" ++ nl ++ " [{'name': 'input', 'shape': [1, 3, 40]}]" ++ nl
    ++ "Output shape: " ++ nl ++ " [{'name': 'output', 'shape': [1, 1]}]" ++ nl.
Proof. vm_compute; reflexivity. Qed.

(** With standard output closed after the first report, the second [print]
    raises and the first report stays. *)
Example broken_pipe :
  let r := run Toy.tf Toy.str_details Toy.str_interpreter Toy.closing_stdout
               [] [] [] (Toy.disk "okay_nabu") in
  fst r = Raise "BrokenPipeError" /\
  stdout (snd r) =
    input_report Toy.str_details "[{'name': 'input', 'shape': [1, 3, 40]}]".
Proof. vm_compute; split; reflexivity. Qed.

(** The last query of a run on a well-formed model is made on the object
    that the constructor returned. *)
Lemma calls_use_the_constructed_object_witness :
  In (call_get_output_details 0,
      Returned (VDetails "[{'name': 'output', 'shape': [1, 1]}]"))
     (trace (snd (Toy.run [] [] (Toy.disk "okay_nabu")))) /\
  In (call_Interpreter TFLITE_PATH, Returned (VInterpreter 0))
     (trace (snd (Toy.run [] [] (Toy.disk "okay_nabu")))).
Proof.
  assert (Hin :
    In (call_get_output_details 0,
        Returned (VDetails "[{'name': 'output', 'shape': [1, 1]}]"))
       (trace (snd (Toy.run [] [] (Toy.disk "okay_nabu"))))).
  { vm_compute; do 4 right; left; reflexivity. }
  split; [exact Hin |].
  exact (calls_use_the_constructed_object Toy.tf Toy.str_details
           Toy.str_interpreter Toy.open_stdout [] [] []
           (Toy.disk "okay_nabu") _ _ Hin).
Defined.

(** The second [print] of that run is given the output details. *)
Lemma prints_what_the_runtime_returned_witness :
  In (call_print [VStr ("Output shape: " ++ nl);
                  VDetails "[{'name': 'output', 'shape': [1, 1]}]"],
      Returned VNone)
     (trace (snd (Toy.run [] [] (Toy.disk "okay_nabu")))) /\
  exists h d,
    ([VStr ("Output shape: " ++ nl);
      VDetails "[{'name': 'output', 'shape': [1, 1]}]"] =
     ([VStr ("Input shape :" ++ nl); VDetails d]
      : list (value Toy.Handle Toy.Details)) /\
     In (call_get_input_details h, Returned (VDetails d))
        (trace (snd (Toy.run [] [] (Toy.disk "okay_nabu"))))) \/
    ([VStr ("Output shape: " ++ nl);
      VDetails "[{'name': 'output', 'shape': [1, 1]}]"] =
     ([VStr ("Output shape: " ++ nl); VDetails d]
      : list (value Toy.Handle Toy.Details)) /\
     In (call_get_output_details h, Returned (VDetails d))
        (trace (snd (Toy.run [] [] (Toy.disk "okay_nabu"))))).
Proof.
  assert (Hin :
    In (call_print [VStr ("Output shape: " ++ nl);
                    VDetails "[{'name': 'output', 'shape': [1, 1]}]"],
        Returned VNone)
       (trace (snd (Toy.run [] [] (Toy.disk "okay_nabu"))))).
  { vm_compute; do 5 right; left; reflexivity. }
  split; [exact Hin |].
  exact (prints_what_the_runtime_returned Toy.tf Toy.str_details
           Toy.str_interpreter Toy.open_stdout [] [] []
           (Toy.disk "okay_nabu") _ _ Hin).
Defined.
